(** * ActivityDrawer: the view logic of [src/components/ActivityDrawer/index.tsx]

    A shallow embedding of the component's pure derivations (network
    configuration, display address, row formatting) and of its
    fetch-and-store effect, followed by the properties of each. *)

From Stdlib Require Import ZArith Lia Ascii String.
From stdpp Require Import base list gmap pretty.

Local Open Scope Z_scope.

(** ** JavaScript strings

    A JavaScript string is a sequence of 16-bit code units; [length],
    [slice] and [includes] all count code units. *)

Module JS.

Definition jsstring := list N.

(** Literal of Basic Latin characters. *)
Definition lit (s : string) : jsstring :=
  List.map N_of_ascii (list_ascii_of_string s).

(** U+2026 HORIZONTAL ELLIPSIS and U+2014 EM DASH. *)
Definition ellipsis : jsstring := [8230%N].
Definition emDash : jsstring := [8212%N].

Definition len (s : jsstring) : Z := Z.of_nat (length s).

(** Relative index of [String.prototype.slice]: negative counts from the
    end, and the result is clamped to [0, len]. *)
Definition relIndex (l i : Z) : Z :=
  if i <? 0 then Z.max (l + i) 0 else Z.min i l.

(** [s.slice(start, end)] *)
Definition slice (s : jsstring) (start end_ : Z) : jsstring :=
  let from := relIndex (len s) start in
  let to := relIndex (len s) end_ in
  take (Z.to_nat (to - from)) (drop (Z.to_nat from) s).

(** [s.slice(start)]: the end defaults to the length. *)
Definition sliceFrom (s : jsstring) (start : Z) : jsstring :=
  slice s start (len s).

(** Truthiness of an optional string: [undefined] and [''] are falsy. *)
Definition truthy (s : option jsstring) : bool :=
  match s with
  | Some (_ :: _) => true
  | _ => false
  end.

(** [s.startsWith(p)] and [s.includes(p)] on code units. *)
Fixpoint startsWith (p s : jsstring) : bool :=
  match p, s with
  | [], _ => true
  | _ :: _, [] => false
  | a :: p', b :: s' => (a =? b)%N && startsWith p' s'
  end.

Fixpoint includes (p s : jsstring) : bool :=
  startsWith p s ||
  match s with
  | [] => false
  | _ :: s' => includes p s'
  end.

(** [s.toLowerCase()]. Basic Latin capitals are shifted to their small
    letters; U+212A KELVIN SIGN and U+0130 are the only code units outside
    Basic Latin whose lower-casing produces a Basic Latin letter. Every
    other code unit is kept: its lower-casing is a single code unit outside
    Basic Latin, so tests against Basic Latin substrings are unaffected. *)
Definition lowerUnit (c : N) : jsstring :=
  if (65 <=? c)%N && (c <=? 90)%N then [(c + 32)%N]
  else if (c =? 8490)%N then [107%N]
  else if (c =? 304)%N then [105%N; 775%N]
  else [c].

Definition toLowerCase (s : jsstring) : jsstring := flat_map lowerUnit s.

(** Decimal rendering of an integral Number, as template literals do. *)
Definition numberToString (z : Z) : jsstring := lit (pretty z).

End JS.
Import JS.

(** ** Row formatter: [short] *)

(** [(s?: string, n = 8) => !s ? '—' : s.length > n * 2 ? `${s.slice(0, n)}…${s.slice(-n)}` : s] *)
Definition short (s : option jsstring) (n : option Z) : jsstring :=
  let n := default 8 n in
  match s with
  | Some s' =>
      if negb (truthy s) then emDash
      else if len s' >? n * 2 then slice s' 0 n ++ ellipsis ++ sliceFrom s' (- n)
      else s'
  | None => emDash
  end.

(** ** Network configuration resolver *)

Record SubscanConfig := {
  api : jsstring;
  site : jsstring;
  ss58 : Z;
  label : jsstring;
}.

(** The value of the [$network] store as the resolver inspects it: nullish,
    a string, or an object whose [id] and [name] may be absent. *)
Inductive network :=
| NetMissing
| NetString (s : jsstring)
| NetObject (id name : option jsstring).

(** [a ?? b] on optional values. *)
Definition nullish {A} (a : option A) (b : A) : A :=
  match a with
  | Some x => x
  | None => b
  end.

Definition normalizeNetworkName (n : network) : jsstring :=
  match n with
  | NetMissing => lit "polkadot"
  | NetString s =>
      if negb (truthy (Some s)) then lit "polkadot" else toLowerCase s
  | NetObject id name =>
      toLowerCase (nullish id (nullish name (lit "polkadot")))
  end.

Definition kusamaConfig : SubscanConfig :=
  {| api := lit "https://coretime-kusama.api.subscan.io";
     site := lit "https://coretime-kusama.subscan.io";
     ss58 := 2;
     label := lit "Coretime (Kusama)" |}.

Definition westendConfig : SubscanConfig :=
  {| api := lit "https://coretime-westend.api.subscan.io";
     site := lit "https://coretime-westend.subscan.io";
     ss58 := 42;
     label := lit "Coretime (Westend)" |}.

Definition paseoConfig : SubscanConfig :=
  {| api := lit "https://coretime-paseo.api.subscan.io";
     site := lit "https://coretime-paseo.subscan.io";
     ss58 := 42;
     label := lit "Coretime (Paseo)" |}.

Definition polkadotConfig : SubscanConfig :=
  {| api := lit "https://coretime-polkadot.api.subscan.io";
     site := lit "https://coretime-polkadot.subscan.io";
     ss58 := 0;
     label := lit "Coretime (Polkadot)" |}.

Definition coretimeSubscanFor (net : network) : SubscanConfig :=
  let n := normalizeNetworkName net in
  if includes (lit "kusa") n then kusamaConfig
  else if includes (lit "west") n then westendConfig
  else if includes (lit "pase") n then paseoConfig
  else polkadotConfig.

(** ** Row formatter: [explorerUrl] *)

(** A list item of the explorer's response; a field that is [undefined] or
    [null] is [None]. *)
Record SubscanExtrinsic := {
  extrinsic_index : option jsstring;
  block_num : option Z;
  hash : option jsstring;
  module_ : option jsstring;
  call : option jsstring;
  success : option bool;
  fee : option (jsstring + Z);
  time : option Z;
}.

(** [`${x}`] for an optional string. *)
Definition interpolate (x : option jsstring) : jsstring :=
  nullish x (lit "undefined").

Definition explorerUrl (cfg : SubscanConfig) (ex : SubscanExtrinsic) : jsstring :=
  if truthy (hash ex) then
    site cfg ++ lit "/extrinsic/" ++ interpolate (hash ex)
  else if truthy (extrinsic_index ex) then
    site cfg ++ lit "/extrinsic/" ++ interpolate (extrinsic_index ex)
  else
    match block_num ex with
    | Some b => site cfg ++ lit "/block/" ++ numberToString b
    | None => site cfg
    end.

(** ** Response bodies *)

(** The value produced by [res.json()]. An object is a finite map from
    property names to values; [null] is [JNull] and a property that is not
    there is a failed lookup. *)
#[warnings="-register-all"]
Inductive jsval :=
| JNull
| JBool (b : bool)
| JNum (z : Z)
| JStr (s : jsstring)
| JArr (l : list jsval)
| JObj (m : gmap jsstring jsval).

(** [v?.k] for the property names the component reads ([data], [list],
    [extrinsics]): none of them is a built-in property of a string, number,
    boolean or array, so only an object can answer. [None] is [undefined]. *)
Definition optGet (v : option jsval) (k : jsstring) : option jsval :=
  match v with
  | Some (JObj m) => m !! k
  | _ => None
  end.

(** [Array.isArray(v)] *)
Definition isArray (v : option jsval) : bool :=
  match v with
  | Some (JArr _) => true
  | _ => false
  end.

(** [v ?? d] on values: [undefined] and [null] give [d]. *)
Definition nullishV (v : option jsval) (d : jsval) : jsval :=
  match v with
  | None | Some JNull => d
  | Some x => x
  end.

(** [Array.isArray(data?.data?.list) ? data.data.list : (data?.data?.extrinsics ?? [])] *)
Definition extractItems (data : jsval) : jsval :=
  let list := optGet (optGet (Some data) (lit "data")) (lit "list") in
  if isArray list then nullishV list JNull
  else nullishV (optGet (optGet (Some data) (lit "data")) (lit "extrinsics")) (JArr []).

(** ** Component state and effects *)

(** A thrown value. *)
Inductive exn := Error (message : jsstring).

Inductive result (A : Type) :=
| Ok (a : A)
| Throw (e : exn).
Arguments Ok {A} a.
Arguments Throw {A} e.

(** The two [useState] cells. [items] is declared [SubscanExtrinsic[]], but
    it holds whatever [setItems] was given. *)
Record state := {
  items : jsval;
  loading : bool;
}.

Record request := {
  method : jsstring;
  headers : list (jsstring * jsstring);
  body : jsval;
}.

(** What [fetch] resolved to; reading the body may itself reject. *)
Record Response := {
  ok : bool;
  status : Z;
  text : result jsstring;
  json : result jsval;
}.

(** What the component does to the outside, in program order. *)
Inductive event :=
| SetItems (v : jsval)
| SetLoading (b : bool)
| Fetch (url : jsstring) (init : request)
| ConsoleWarn
| ConsoleError.

(** The surroundings of one run: the configured key and the network. *)
Record env := {
  SUBSCAN_API_KEY : jsstring;
  fetch : jsstring -> request -> result Response;
}.

Record world := {
  st : state;
  trace : list event;
}.

(** Computations that update the state cells, record their events and may
    throw. *)
Definition M (A : Type) : Type := world -> world * result A.

#[global] Instance M_ret : MRet M := fun A a w => (w, Ok a).

#[global] Instance M_bind : MBind M := fun A B k m w =>
  match m w with
  | (w', Ok a) => k a w'
  | (w', Throw e) => (w', Throw e)
  end.

(** [await p] for a promise that has settled. *)
Definition await {A} (r : result A) : M A := fun w => (w, r).

(** [try { m } catch (e) { h e }] *)
Definition tryCatch {A} (m : M A) (h : exn -> M A) : M A :=
  fun w =>
    match m w with
    | (w', Ok a) => (w', Ok a)
    | (w', Throw e) => h e w'
    end.

(** [try { m } finally { f }]: [f] runs on both exits and its own throw
    replaces the outcome of [m]. *)
Definition tryFinally {A} (m : M A) (f : M unit) : M A :=
  fun w =>
    match m w with
    | (w', r) =>
        match f w' with
        | (w'', Ok _) => (w'', r)
        | (w'', Throw e) => (w'', Throw e)
        end
    end.

Definition emit (ev : event) : M unit :=
  fun w => ({| st := st w; trace := trace w ++ [ev] |}, Ok tt).

Definition setItems (v : jsval) : M unit :=
  fun w =>
    ({| st := {| items := v; loading := loading (st w) |};
        trace := trace w ++ [SetItems v] |}, Ok tt).

Definition setLoading (b : bool) : M unit :=
  fun w =>
    ({| st := {| items := items (st w); loading := b |};
        trace := trace w ++ [SetLoading b] |}, Ok tt).

Definition doFetch (e : env) (url : jsstring) (init : request) : M Response :=
  emit (Fetch url init);; await (fetch e url init).

Definition when_ (b : bool) (m : M unit) : M unit :=
  if b then m else mret tt.

(** The request of the history fetcher. *)
Definition extrinsicsRequest (e : env) (address : jsstring) : request :=
  {| method := lit "POST";
     headers := [(lit "Content-Type", lit "application/json");
                 (lit "X-API-Key", SUBSCAN_API_KEY e)];
     body := JObj (<[lit "row" := JNum 10]>
                   (<[lit "page" := JNum 0]>
                    (<[lit "address" := JStr address]> ∅))) |}.

(** The body of the second [useEffect], the asynchronous function run to
    completion. *)
Definition fetchEffect (e : env) (open : bool) (address : option jsstring)
    (cfg : SubscanConfig) : M unit :=
  if negb open then mret tt
  else if negb (truthy address) then
    setItems (JArr []);; setLoading false
  else
    setLoading true;;
    tryFinally
      (tryCatch
         (when_ (negb (truthy (Some (SUBSCAN_API_KEY e)))) (emit ConsoleWarn);;
          res ← doFetch e (api cfg ++ lit "/api/v2/scan/extrinsics")
                  (extrinsicsRequest e (interpolate address));
          if negb (ok res) then
            _ ← await (text res);
            emit ConsoleError;;
            setItems (JArr [])
          else
            data ← await (json res);
            setItems (extractItems data))
         (fun _ => emit ConsoleError;; setItems (JArr [])))
      (setLoading false).

(** One run from the state [s], with the events of that run. *)
Definition runFetchEffect (e : env) (open : bool) (address : option jsstring)
    (cfg : SubscanConfig) (s : state) : world * result unit :=
  fetchEffect e open address cfg {| st := s; trace := [] |}.

(** ** Display address *)

Module Account.
Record t := { address : option jsstring }.
End Account.

Section DisplayAddress.

(** [encodeAddress] of [@polkadot/util-crypto]: the re-encoded address, or
    the error it throws on a key it cannot decode. *)
Variable encodeAddress : jsstring -> Z -> result jsstring.

(** [selectedAccount?.address ? encodeAddress(selectedAccount.address, cfg.ss58) : undefined] *)
Definition address (selectedAccount : option Account.t) (cfg : SubscanConfig)
    : result (option jsstring) :=
  let a := match selectedAccount with
           | Some acc => Account.address acc
           | None => None
           end in
  if truthy a then
    match encodeAddress (interpolate a) (ss58 cfg) with
    | Ok s => Ok (Some s)
    | Throw e => Throw e
    end
  else Ok None.

End DisplayAddress.

(** ** Vocabulary of the statements *)

(** [p] occurs in [s] at some position. *)
Definition occursIn (p s : jsstring) : Prop :=
  exists pre post, s = pre ++ p ++ post.

(** The identifier a network value carries: the string itself, or the [id]
    of an object and failing that its [name]; a missing value has none. *)
Definition identifier (n : network) : option jsstring :=
  match n with
  | NetMissing => None
  | NetString s => Some s
  | NetObject (Some i) _ => Some i
  | NetObject None name => name
  end.

(** A field that holds a non-empty string. *)
Definition nonEmpty (o : option jsstring) : Prop :=
  exists h, o = Some h /\ h <> [].

(** The chain of substring tests, on an already lower-cased name. *)
Definition configOf (n : jsstring) : SubscanConfig :=
  if includes (lit "kusa") n then kusamaConfig
  else if includes (lit "west") n then westendConfig
  else if includes (lit "pase") n then paseoConfig
  else polkadotConfig.

(** ** Vocabulary of the fetcher's statements *)

(** The request URL, the property [data?.data?.k] of a body, and the body of
    a fetch that succeeded: [fetch] resolved, the status is a success and the
    body parsed. *)
Definition extrinsicsUrl (cfg : SubscanConfig) : jsstring :=
  api cfg ++ lit "/api/v2/scan/extrinsics".

Definition dataField (data : jsval) (k : string) : option jsval :=
  optGet (optGet (Some data) (lit "data")) (lit k).

Definition fetchedBody (r : result Response) : option jsval :=
  match r with
  | Ok res =>
      if ok res then
        match json res with
        | Ok data => Some data
        | Throw _ => None
        end
      else None
  | Throw _ => None
  end.

Definition resetsLoading (ev : event) : bool :=
  match ev with
  | SetLoading false => true
  | _ => false
  end.

Definition isFetch (ev : event) : bool :=
  match ev with
  | Fetch _ _ => true
  | _ => false
  end.

(** ** Sample inputs *)

(** A record that only has an index and an empty hash. *)
Definition indexOnly : SubscanExtrinsic :=
  {| extrinsic_index := Some (lit "5-1"); block_num := None; hash := Some [];
     module_ := None; call := None; success := None; fee := None;
     time := None |}.

(** A body whose [data.extrinsics] is a string, and the network that
    answers it. *)
Definition textualBody : jsval :=
  JObj {[ lit "data" := JObj {[ lit "extrinsics" := JStr (lit "oops") ]} ]}.

Definition responding (key : jsstring) (r : result Response) : env :=
  {| SUBSCAN_API_KEY := key; fetch := fun _ _ => r |}.

Definition answering (data : jsval) : env :=
  responding (lit "key")
    (Ok {| ok := true; status := 200; text := Ok []; json := Ok data |}).

(** A network that is down, one that refuses the key, and one whose answer
    does not parse. *)
Definition offline : env :=
  responding [] (Throw (Error (lit "Failed to fetch"))).

Definition unauthorized : env :=
  responding (lit "key")
    (Ok {| ok := false; status := 401; text := Ok (lit "unauthorized");
           json := Throw (Error (lit "Unexpected token")) |}).

Definition garbled : env :=
  responding (lit "key")
    (Ok {| ok := true; status := 200; text := Ok (lit "<html>");
           json := Throw (Error (lit "Unexpected token")) |}).

Definition idle : state := {| items := JArr []; loading := false |}.

Definition alice : jsstring :=
  lit "5GrwvaEF5zXb26Fz9rcQpDWS57CtERHpNehXCPcNoHGKutQY".

(** A body that lists eleven records. *)
Definition elevenRecords : list jsval :=
  replicate 11 (JObj {[ lit "success" := JBool true ]}).

Definition elevenBody : jsval :=
  JObj {[ lit "data" := JObj {[ lit "list" := JArr elevenRecords ]} ]}.

(** The Base58 alphabet, and a stand-in for the library's encoder that, like
    it, throws on a key with a character outside the alphabet. *)
Definition isBase58 (c : N) : bool :=
  existsb (N.eqb c)
    (lit "123456789ABCDEFGHJKLMNPQRSTUVWXYZabcdefghijkmnopqrstuvwxyz").

Definition checkingEncoder (key : jsstring) (format : Z) : result jsstring :=
  if forallb isBase58 key then Ok key
  else Throw (Error (lit "Invalid base58 character")).

(** An account whose raw address is not an address. *)
Definition malformed : Account.t :=
  {| Account.address := Some (lit "not an address") |}.

(** ** Row formatter: [when], status, label and meta line *)

Inductive TxStatus := Pending | Success | Failed.

Inductive icon := Loader2 | CheckCircle2 | AlertTriangle.

(** [StatusIcon]: the icon drawn for a status. *)
Definition StatusIcon (status : TxStatus) : icon :=
  match status with
  | Pending => Loader2
  | Success => CheckCircle2
  | Failed => AlertTriangle
  end.

(** [ex.success ? 'success' : 'failed'] *)
Definition statusOf (ex : SubscanExtrinsic) : TxStatus :=
  match success ex with
  | Some true => Success
  | _ => Failed
  end.

(** [ex.module && ex.call ? `${ex.module}.${ex.call}` : 'Transaction'] *)
Definition labelOf (ex : SubscanExtrinsic) : jsstring :=
  if truthy (module_ ex) && truthy (call ex) then
    interpolate (module_ ex) ++ lit "." ++ interpolate (call ex)
  else lit "Transaction".

(** [a ?? b] where both sides may be missing. *)
Definition coalesce {A} (a b : option A) : option A :=
  match a with
  | Some x => Some x
  | None => b
  end.

(** The text of the row's button: [short(ex.hash ?? ex.extrinsic_index, 8)]. *)
Definition buttonText (ex : SubscanExtrinsic) : jsstring :=
  short (coalesce (hash ex) (extrinsic_index ex)) (Some 8).

(** [parts.join(sep)] *)
Fixpoint join (sep : jsstring) (parts : list jsstring) : jsstring :=
  match parts with
  | [] => []
  | [p] => p
  | p :: rest => p ++ sep ++ join sep rest
  end.

(** Two spaces, U+2022 BULLET, two spaces. *)
Definition bullet : jsstring := [32%N; 32%N; 8226%N; 32%N; 32%N].

(** The largest time value of a [Date], in milliseconds either side of the
    epoch. *)
Definition maxTime : Z := 8640000000000000.

Section Clock.

(** [Date.now()] in milliseconds, and [d.toLocaleString()] of the date
    with a given time value. *)
Variable now : Z.
Variable toLocaleString : Z -> jsstring.

(** [when]: the relative age of a timestamp in seconds. A product
    [t * 1000] outside the range of [Date] gives an invalid date, whose
    time value is NaN: every comparison fails and [toLocaleString] answers
    "Invalid Date". Nothing in the body throws. *)
Definition when (t : option Z) : jsstring :=
  match t with
  | None => []
  | Some t =>
      if t =? 0 then []
      else
        let d := t * 1000 in
        if maxTime <? Z.abs d then lit "Invalid Date"
        else
          let diff := now - d in
          if diff <? 60000 then lit "Just now"
          else if diff <? 3600000 then
            numberToString (diff / 60000) ++ lit " min ago"
          else if diff <? 86400000 then
            numberToString (diff / 3600000) ++ lit "h ago"
          else toLocaleString d
  end.

(** [[cfg.label, when(ex.time), ex.block_num != null ? `Block ${ex.block_num}` : ''].filter(Boolean)] *)
Definition metaParts (cfg : SubscanConfig) (ex : SubscanExtrinsic)
    : list jsstring :=
  List.filter (fun p => truthy (Some p))
    [label cfg;
     when (time ex);
     match block_num ex with
     | Some b => lit "Block " ++ numberToString b
     | None => []
     end].

(** The second line of a row: [metaParts.join('  •  ')]. *)
Definition row2 (cfg : SubscanConfig) (ex : SubscanExtrinsic) : jsstring :=
  join bullet (metaParts cfg ex).

End Clock.

(** ** History section: the notice above the list *)

(** [items.length === 0] on whatever [items] holds: reading [length] of
    [null] throws, a number or boolean has none, an object answers with its
    own property. *)
Definition lengthIsZero (items : jsval) : result bool :=
  match items with
  | JNull => Throw (Error (lit "Cannot read properties of null"))
  | JArr l => Ok (bool_decide (l = []))
  | JStr s => Ok (bool_decide (s = []))
  | JObj m =>
      Ok match m !! lit "length" with
         | Some (JNum 0) => true
         | _ => false
         end
  | JBool _ | JNum _ => Ok false
  end.

(** [!loading && (!address || items.length === 0) && <div>...</div>]: the
    text of the notice, if one is drawn. *)
Definition emptyNotice (loading : bool) (address : option jsstring)
    (items : jsval) : result (option jsstring) :=
  if negb loading then
    if negb (truthy address) then Ok (Some (lit "Please select an account."))
    else
      match lengthIsZero items with
      | Ok true => Ok (Some (lit "No transactions found for this address."))
      | Ok false => Ok None
      | Throw e => Throw e
      end
  else Ok None.

(** ** Panel shell: dismissal on Escape *)

(** A [keydown] listener of the document: the closure [onEsc] of one run of
    the effect, with the [onClose] it captured. *)
Record listener := {
  closure : nat;
  captured : nat;
}.

(** [document.addEventListener('keydown', l)]: a listener that is already
    registered is not registered twice. *)
Definition addEventListener (l : listener) (doc : list listener)
    : list listener :=
  if existsb (fun k => Nat.eqb (closure k) (closure l)) doc then doc
  else doc ++ [l].

(** [document.removeEventListener('keydown', l)] *)
Definition removeEventListener (l : listener) (doc : list listener)
    : list listener :=
  List.filter (fun k => negb (Nat.eqb (closure k) (closure l))) doc.

(** [onEsc]: [(e) => e.key === 'Escape' && onClose()]; the callbacks it
    invokes. *)
Definition onEsc (l : listener) (key : jsstring) : list nat :=
  if bool_decide (key = lit "Escape") then [captured l] else [].

(** A [keydown] event on the document: every listener runs, in the order
    of registration. *)
Definition keydown (key : jsstring) (doc : list listener) : list nat :=
  flat_map (fun l => onEsc l key) doc.

(** The body of the first [useEffect], and the cleanup it returns. *)
Definition escEffect (open : bool) (l : listener) (doc : list listener)
    : list listener :=
  if open then addEventListener l doc else doc.

Definition escCleanup (l : listener) (doc : list listener) : list listener :=
  removeEventListener l doc.

(** The panel as React drives it: the document, the effect that is live
    with the dependencies it ran with, and the number of closures made so
    far. *)
Record shell := {
  document : list listener;
  live : option (bool * listener);
  made : nat;
}.

(** A render with props [open] and [onClose]. The effect has dependencies
    [[open, onClose]]: when either changed (or on mount) the cleanup of the
    live effect runs, then the effect runs with a new closure. *)
Definition render (open : bool) (onClose : nat) (sh : shell) : shell :=
  let rerun :=
    {| document :=
         escEffect open {| closure := made sh; captured := onClose |}
           (match live sh with
            | Some (_, l) => escCleanup l (document sh)
            | None => document sh
            end);
       live := Some (open, {| closure := made sh; captured := onClose |});
       made := S (made sh) |} in
  match live sh with
  | Some (o, l) =>
      if Bool.eqb o open && Nat.eqb (captured l) onClose then sh else rerun
  | None => rerun
  end.

(** Unmounting runs the cleanup of the live effect. *)
Definition unmount (sh : shell) : shell :=
  {| document :=
       match live sh with
       | Some (_, l) => escCleanup l (document sh)
       | None => document sh
       end;
     live := None;
     made := made sh |}.

(** A series of renders, oldest first. *)
Definition renders (props : list (bool * nat)) (sh : shell) : shell :=
  fold_left (fun sh p => render p.1 p.2 sh) props sh.

(** The panel before it is mounted, on a document with other listeners. *)
Definition unmounted (doc : list listener) (n : nat) : shell :=
  {| document := doc; live := None; made := n |}.

(** The panel's bookkeeping agrees with the document: besides the
    listeners [doc] of others, whose closures were made before [n0], the
    document holds the live closure exactly when the live effect ran with
    the panel open. *)
Definition consistent (doc : list listener) (n0 : nat) (sh : shell) : Prop :=
  (n0 <= made sh)%nat /\
  match live sh with
  | None => document sh = doc
  | Some (o, l) =>
      (n0 <= closure l < made sh)%nat /\
      document sh = doc ++ (if o then [l] else [])
  end.

(** A successful purchase on the broker pallet, stamped in seconds. *)
Definition purchase : SubscanExtrinsic :=
  {| extrinsic_index := Some (lit "4096-2"); block_num := Some 4096;
     hash := Some (lit "0x1234567890abcdef1234");
     module_ := Some (lit "broker"); call := Some (lit "purchase");
     success := Some true; fee := None; time := Some 1700000000 |}.

(** * Properties *)

(** ** Strings *)

Lemma startsWith_spec (p s : jsstring) :
  startsWith p s = true <-> exists post, s = p ++ post.
Proof.
  revert s; induction p as [|a p IH]; intros s; simpl.
  - split; [intros _; now exists s | reflexivity].
  - destruct s as [|b s].
    + split; [discriminate | intros [post H]; discriminate].
    + rewrite andb_true_iff, N.eqb_eq, IH. split.
      * intros [-> [post ->]]. now exists post.
      * intros [post H]. injection H as -> ->. split; [reflexivity | now exists post].
Qed.

Lemma includes_spec (p s : jsstring) :
  includes p s = true <-> occursIn p s.
Proof.
  unfold occursIn. induction s as [|b s IH].
  - simpl. rewrite orb_false_r, startsWith_spec. split.
    + intros [post H]. now exists [], post.
    + intros [pre [post H]]. destruct pre; [now exists post | discriminate].
  - cbn [includes]. rewrite orb_true_iff, startsWith_spec, IH. split.
    + intros [[post H] | [pre [post H]]].
      * now exists [], post.
      * exists (b :: pre), post. now rewrite H.
    + intros [pre [post H]]. destruct pre as [|c pre].
      * left. now exists post.
      * right. injection H as _ H. now exists pre, post.
Qed.

Lemma includes_false (p s : jsstring) :
  includes p s = false <-> ~ occursIn p s.
Proof.
  rewrite <- includes_spec. destruct (includes p s); split; congruence.
Qed.

Lemma len_nonneg (s : jsstring) : 0 <= len s.
Proof. unfold len. lia. Qed.

Lemma slice_prefix (s : jsstring) (n : Z) :
  0 <= n <= len s -> slice s 0 n = take (Z.to_nat n) s.
Proof.
  intros H. unfold slice, relIndex.
  replace (0 <? 0) with false by reflexivity.
  destruct (Z.ltb_spec n 0); [lia|].
  rewrite Z.min_l, Z.min_l by lia.
  now rewrite Z.sub_0_r.
Qed.

Lemma sliceFrom_suffix (s : jsstring) (n : Z) :
  0 < n <= len s -> sliceFrom s (- n) = drop (length s - Z.to_nat n) s.
Proof.
  intros H. unfold sliceFrom, slice, relIndex.
  destruct (Z.ltb_spec (- n) 0); [|lia].
  destruct (Z.ltb_spec (len s) 0); [pose proof (len_nonneg s); lia|].
  rewrite Z.max_l, Z.min_l by lia.
  unfold len in *.
  replace (Z.to_nat (Z.of_nat (length s) + - n)) with (length s - Z.to_nat n)%nat by lia.
  apply take_ge. rewrite length_drop. lia.
Qed.

(** The three cases of [short] at an explicit width. *)
Lemma short_cases (s : jsstring) (n : Z) :
  short (Some s) (Some n) =
    if decide (s = []) then emDash
    else if len s >? n * 2 then slice s 0 n ++ ellipsis ++ sliceFrom s (- n)
    else s.
Proof. destruct s; reflexivity. Qed.

Lemma short_shortened (s : jsstring) (n : Z) :
  1 <= n -> n * 2 < len s ->
  short (Some s) (Some n)
  = take (Z.to_nat n) s ++ ellipsis ++ drop (length s - Z.to_nat n) s.
Proof.
  intros Hn Hl. rewrite short_cases.
  destruct (decide (s = [])) as [->|_]; [unfold len in Hl; simpl length in Hl; lia|].
  destruct (Z.gtb_spec (len s) (n * 2)); [|lia].
  now rewrite slice_prefix, sliceFrom_suffix by lia.
Qed.

(** ** Row formatter: [short] *)

Example short_hash :
  short (Some (lit "0x1234567890abcdef1234")) (Some 8)
  = lit "0x123456" ++ ellipsis ++ lit "cdef1234".
Proof. reflexivity. Qed.

Example short_header :
  short (Some (lit "5GrwvaEF5zXb26Fz9rcQpDWS57CtERHpNehXCPcNoHGKutQY")) (Some 6)
  = lit "5Grwva" ++ ellipsis ++ lit "GKutQY".
Proof. reflexivity. Qed.

Example short_zero_width :
  short (Some (lit "ab")) (Some 0) = ellipsis ++ lit "ab".
Proof. reflexivity. Qed.

(** C4, as stated, fails on the empty string: it is a defined string of
    length at most 16, and [short] answers the dash instead of returning it
    unchanged. *)
Lemma short_empty_is_dash :
  len [] <= 16 /\ short (Some []) None = emDash /\ short (Some []) None <> [].
Proof. repeat split; [unfold len; simpl; lia | discriminate]. Qed.

(** C4 (amended): with the default width 8, a string longer than 16
    characters becomes its first 8 characters, an ellipsis and its last 8
    characters; a non-empty string of at most 16 characters is returned
    unchanged; the empty string and [undefined] both give the dash. *)
Theorem short_default (s : jsstring) :
  (16 < len s ->
     short (Some s) None = take 8 s ++ ellipsis ++ drop (length s - 8) s) /\
  (s <> [] -> len s <= 16 -> short (Some s) None = s) /\
  short (Some []) None = emDash /\
  short None None = emDash.
Proof.
  change (short (Some s) None) with (short (Some s) (Some 8)).
  repeat split.
  - intros H. now rewrite short_shortened by lia.
  - intros Hs H. rewrite short_cases.
    destruct (decide (s = [])); [contradiction|].
    destruct (Z.gtb_spec (len s) (8 * 2)); [lia | reflexivity].
Qed.

Lemma short_default_witness :
  16 < len (lit "0x1234567890abcdef1234") /\
  short (Some (lit "0x1234567890abcdef1234")) None
  = lit "0x123456" ++ ellipsis ++ lit "cdef1234".
Proof.
  split; [reflexivity|].
  apply (proj1 (short_default (lit "0x1234567890abcdef1234"))).
  reflexivity.
Defined.

(** C9: for every width [n >= 1], shortening twice is shortening once; a
    shortened string has [2n + 1] code units, and shortening it again keeps
    the same first [n], the ellipsis and the same last [n]. *)
Theorem short_idempotent (s : jsstring) (n : Z) :
  1 <= n ->
  short (Some (short (Some s) (Some n))) (Some n) = short (Some s) (Some n) /\
  (n * 2 < len s -> len (short (Some s) (Some n)) = 2 * n + 1).
Proof.
  intros Hn.
  destruct (Z.ltb_spec (n * 2) (len s)) as [Hl|Hl].
  - (* shortened *)
    pose proof (short_shortened s n Hn Hl) as E.
    set (k := Z.to_nat n) in *.
    assert (Hk : (k * 2 < length s)%nat) by (unfold len in Hl; lia).
    assert (Hlen : length (short (Some s) (Some n)) = (k + 1 + k)%nat).
    { rewrite E, !length_app, length_take, length_drop. simpl. lia. }
    split; [|intros _; unfold len; lia].
    rewrite (short_shortened (short (Some s) (Some n)) n Hn) by (unfold len; lia).
    fold k. rewrite Hlen, E.
    f_equal; [|f_equal].
    + apply take_app_length'. rewrite length_take. lia.
    + rewrite app_assoc. apply drop_app_length'.
      rewrite length_app, length_take. simpl. lia.
  - (* returned as it is, or replaced by the dash *)
    split; [|lia].
    rewrite (short_cases s).
    destruct (decide (s = [])) as [->|Hs].
    + rewrite short_cases. destruct (decide (emDash = [])); [discriminate|].
      destruct (Z.gtb_spec (len emDash) (n * 2)) as [H|_]; [|reflexivity].
      unfold len in H. simpl in H. lia.
    + destruct (Z.gtb_spec (len s) (n * 2)); [lia|].
      rewrite short_cases. destruct (decide (s = [])); [contradiction|].
      destruct (Z.gtb_spec (len s) (n * 2)); [lia | reflexivity].
Qed.

Lemma short_idempotent_witness :
  1 <= 8 /\
  short (Some (short (Some (lit "0x1234567890abcdef1234")) (Some 8))) (Some 8)
  = short (Some (lit "0x1234567890abcdef1234")) (Some 8).
Proof.
  split; [lia|].
  apply (short_idempotent (lit "0x1234567890abcdef1234") 8). lia.
Defined.

(** ** Network configuration resolver *)

Example resolver_kusama :
  coretimeSubscanFor (NetString (lit "Coretime-KUSAMA")) = kusamaConfig.
Proof. reflexivity. Qed.

Example resolver_object_name :
  coretimeSubscanFor (NetObject None (Some (lit "Westend"))) = westendConfig.
Proof. reflexivity. Qed.

Example resolver_object_empty_id :
  coretimeSubscanFor (NetObject (Some []) (Some (lit "kusama"))) = polkadotConfig.
Proof. reflexivity. Qed.

Example resolver_priority :
  coretimeSubscanFor (NetString (lit "paseo-west-kusama")) = kusamaConfig.
Proof. reflexivity. Qed.

Example resolver_kelvin_sign :
  coretimeSubscanFor (NetString (8490%N :: lit "usama")) = kusamaConfig.
Proof. reflexivity. Qed.

Example resolver_unknown :
  coretimeSubscanFor (NetString (lit "rococo")) = polkadotConfig.
Proof. reflexivity. Qed.

(** The resolver only depends on the lower-cased identifier; without an
    identifier it tests a name in which none of the three substrings
    occurs. *)
Lemma coretimeSubscanFor_identifier (n : network) :
  coretimeSubscanFor n =
    match identifier n with
    | Some i => configOf (toLowerCase i)
    | None => polkadotConfig
    end.
Proof.
  destruct n as [|s|[i|] [m|]]; try reflexivity.
  destruct s; reflexivity.
Qed.

(** C3: the resolver is a total function of the network value. When the
    lower-cased identifier contains "kusa" it answers the Kusama
    configuration, else when it contains "west" the Westend one, else when it
    contains "pase" the Paseo one, else the Polkadot one, which is also the
    answer for a missing identifier; two values whose identifiers agree up
    to case resolve alike. *)
Theorem coretimeSubscanFor_priority (n : network) :
  let has p := match identifier n with
               | Some i => occursIn (lit p) (toLowerCase i)
               | None => False
               end in
  (has "kusa" -> coretimeSubscanFor n = kusamaConfig) /\
  (~ has "kusa" -> has "west" -> coretimeSubscanFor n = westendConfig) /\
  (~ has "kusa" -> ~ has "west" -> has "pase" ->
     coretimeSubscanFor n = paseoConfig) /\
  (~ has "kusa" -> ~ has "west" -> ~ has "pase" ->
     coretimeSubscanFor n = polkadotConfig) /\
  (forall m, toLowerCase <$> identifier m = toLowerCase <$> identifier n ->
     coretimeSubscanFor m = coretimeSubscanFor n).
Proof.
  cbv zeta. rewrite coretimeSubscanFor_identifier.
  split; [|split; [|split; [|split]]].
  5: { intros m H. rewrite coretimeSubscanFor_identifier.
       destruct (identifier m), (identifier n); simpl in H;
         try discriminate; [|reflexivity].
       injection H as ->. reflexivity. }
  all: destruct (identifier n) as [i|]; [|tauto]; unfold configOf.
  all: rewrite <- !includes_spec.
  all: destruct (includes (lit "kusa") (toLowerCase i)),
         (includes (lit "west") (toLowerCase i)),
         (includes (lit "pase") (toLowerCase i)); intros; congruence.
Qed.

Lemma coretimeSubscanFor_priority_witness :
  occursIn (lit "kusa") (toLowerCase (lit "Coretime-KUSAMA")) /\
  coretimeSubscanFor (NetString (lit "Coretime-KUSAMA")) = kusamaConfig.
Proof.
  assert (H : occursIn (lit "kusa") (toLowerCase (lit "Coretime-KUSAMA"))).
  { exists (lit "coretime-"), (lit "ma"). reflexivity. }
  split; [exact H|].
  exact (proj1 (coretimeSubscanFor_priority (NetString (lit "Coretime-KUSAMA"))) H).
Defined.

(** ** Row formatter: [explorerUrl] *)

Lemma truthy_nonEmpty (o : option jsstring) : truthy o = true <-> nonEmpty o.
Proof.
  unfold nonEmpty. destruct o as [[|c h]|]; simpl; split;
    try discriminate; try (intros [h' [E H]]; congruence).
  intros _. now exists (c :: h).
Qed.

Lemma truthy_false (o : option jsstring) : truthy o = false <-> ~ nonEmpty o.
Proof.
  rewrite <- truthy_nonEmpty. destruct (truthy o); split; congruence.
Qed.

(** C8, as stated, fails on a record whose hash is present but empty: the
    link is built from the index, not from the hash. *)
Lemma explorerUrl_empty_hash_skipped :
  hash indexOnly = Some [] /\
  explorerUrl polkadotConfig indexOnly
  = site polkadotConfig ++ lit "/extrinsic/5-1" /\
  explorerUrl polkadotConfig indexOnly
  <> site polkadotConfig ++ lit "/extrinsic/" ++ [].
Proof. repeat split. discriminate. Qed.

(** C8 (amended): the link is built from the hash when the hash is a
    non-empty string; else from the extrinsic index when that is a non-empty
    string; else from the block number when one is present, zero included;
    else it is the bare site root. *)
Theorem explorerUrl_priority (cfg : SubscanConfig) (ex : SubscanExtrinsic) :
  (forall h, hash ex = Some h -> h <> [] ->
     explorerUrl cfg ex = site cfg ++ lit "/extrinsic/" ++ h) /\
  (forall i, ~ nonEmpty (hash ex) -> extrinsic_index ex = Some i -> i <> [] ->
     explorerUrl cfg ex = site cfg ++ lit "/extrinsic/" ++ i) /\
  (forall b, ~ nonEmpty (hash ex) -> ~ nonEmpty (extrinsic_index ex) ->
     block_num ex = Some b ->
     explorerUrl cfg ex = site cfg ++ lit "/block/" ++ numberToString b) /\
  (~ nonEmpty (hash ex) -> ~ nonEmpty (extrinsic_index ex) ->
     block_num ex = None ->
     explorerUrl cfg ex = site cfg).
Proof.
  unfold explorerUrl. repeat split.
  - intros h E Hh. rewrite E. destruct h; [contradiction | reflexivity].
  - intros i Hh E Hi. apply truthy_false in Hh. rewrite Hh, E.
    destruct i; [contradiction | reflexivity].
  - intros b Hh Hi E. apply truthy_false in Hh, Hi. now rewrite Hh, Hi, E.
  - intros Hh Hi E. apply truthy_false in Hh, Hi. now rewrite Hh, Hi, E.
Qed.

Lemma explorerUrl_priority_witness :
  ~ nonEmpty (hash indexOnly) /\
  explorerUrl kusamaConfig indexOnly
  = site kusamaConfig ++ lit "/extrinsic/" ++ lit "5-1".
Proof.
  assert (H : ~ nonEmpty (hash indexOnly)).
  { intros [h [E Hh]]. injection E as <-. now apply Hh. }
  split; [exact H|].
  refine (proj1 (proj2 (explorerUrl_priority kusamaConfig indexOnly))
            (lit "5-1") H eq_refl _).
  discriminate.
Defined.

Example explorerUrl_block :
  explorerUrl westendConfig
    {| extrinsic_index := None; block_num := Some 4096; hash := None;
       module_ := None; call := None; success := None; fee := None;
       time := None |}
  = lit "https://coretime-westend.subscan.io/block/4096".
Proof. reflexivity. Qed.

Example explorerUrl_bare :
  explorerUrl westendConfig
    {| extrinsic_index := None; block_num := None; hash := None;
       module_ := None; call := None; success := None; fee := None;
       time := None |}
  = lit "https://coretime-westend.subscan.io".
Proof. reflexivity. Qed.

(** C10: on a record whose hash and extrinsic index are the empty string
    and whose block number is 0, the hash and index links are skipped and
    the answer is the block link for block 0: the two strings are tested for
    truthiness, the block number only for being there. *)
Theorem explorerUrl_falsy_fields (cfg : SubscanConfig)
    (m c : option jsstring) (ok : option bool) (f : option (jsstring + Z))
    (t : option Z) :
  explorerUrl cfg
    {| extrinsic_index := Some []; block_num := Some 0; hash := Some [];
       module_ := m; call := c; success := ok; fee := f; time := t |}
  = site cfg ++ lit "/block/0".
Proof. reflexivity. Qed.

(** ** History fetcher *)

(** The events of a run with an address, by outcome of the request. *)
Lemma runFetchEffect_address (e : env) (address : option jsstring)
    (cfg : SubscanConfig) (s : state) :
  truthy address = true ->
  let url := extrinsicsUrl cfg in
  let req := extrinsicsRequest e (interpolate address) in
  let before :=
    SetLoading true ::
    (if truthy (Some (SUBSCAN_API_KEY e)) then [] else [ConsoleWarn]) ++
    [Fetch url req] in
  runFetchEffect e true address cfg s =
    match fetchedBody (fetch e url req) with
    | Some data =>
        ({| st := {| items := extractItems data; loading := false |};
            trace := before ++ [SetItems (extractItems data); SetLoading false] |},
         Ok tt)
    | None =>
        ({| st := {| items := JArr []; loading := false |};
            trace := before ++ [ConsoleError; SetItems (JArr []); SetLoading false] |},
         Ok tt)
    end.
Proof.
  intros H. unfold runFetchEffect, fetchEffect, extrinsicsUrl, fetchedBody.
  rewrite H. cbv zeta.
  unfold tryFinally, tryCatch, doFetch, when_, await, emit, setItems, setLoading,
    mbind, M_bind, mret, M_ret.
  cbn [negb st trace items loading].
  destruct (truthy (Some (SUBSCAN_API_KEY e)));
    cbn [negb st trace items loading app];
    (destruct (fetch e _ _) as [res|err]; [|reflexivity]);
    (destruct (ok res); cbn [negb]).
  all: first [ destruct (json res); reflexivity | destruct (text res); reflexivity ].
Qed.

Lemma extractItems_list (data : jsval) (l : list jsval) :
  dataField data "list" = Some (JArr l) -> extractItems data = JArr l.
Proof. unfold extractItems, dataField. intros ->. reflexivity. Qed.

Lemma extractItems_fallback (data : jsval) :
  isArray (dataField data "list") = false ->
  extractItems data = nullishV (dataField data "extrinsics") (JArr []).
Proof. unfold extractItems, dataField. intros ->. reflexivity. Qed.

(** C2 (defect): on the successful response [{data: {extrinsics: "oops"}}]
    neither field is an array, and the stored result is the string, not the
    empty list. *)
Theorem extractItems_non_array_fallback :
  isArray (dataField textualBody "list") = false /\
  isArray (dataField textualBody "extrinsics") = false /\
  extractItems textualBody = JStr (lit "oops") /\
  items (st (runFetchEffect (answering textualBody) true (Some alice)
               polkadotConfig idle).1) = JStr (lit "oops").
Proof.
  repeat split.
Qed.

(** A run without an address. *)
Lemma runFetchEffect_idle (e : env) (address : option jsstring)
    (cfg : SubscanConfig) (s : state) :
  truthy address = false ->
  runFetchEffect e true address cfg s =
    ({| st := {| items := JArr []; loading := false |};
        trace := [SetItems (JArr []); SetLoading false] |}, Ok tt).
Proof.
  intros H. unfold runFetchEffect, fetchEffect. rewrite H. reflexivity.
Qed.

(** C7: with the panel open and no display address, the run clears the
    result list, then sets loading to false, and does nothing else: no
    request is made. *)
Theorem fetchEffect_no_address (e : env) (address : option jsstring)
    (cfg : SubscanConfig) (s : state) :
  truthy address = false ->
  runFetchEffect e true address cfg s =
    ({| st := {| items := JArr []; loading := false |};
        trace := [SetItems (JArr []); SetLoading false] |}, Ok tt) /\
  List.filter isFetch (trace (runFetchEffect e true address cfg s).1) = [].
Proof.
  intros H. rewrite runFetchEffect_idle by exact H. split; reflexivity.
Qed.

Lemma fetchEffect_no_address_witness :
  truthy None = false /\
  runFetchEffect (answering textualBody) true None kusamaConfig
    {| items := JArr [JNull]; loading := true |} =
    ({| st := {| items := JArr []; loading := false |};
        trace := [SetItems (JArr []); SetLoading false] |}, Ok tt).
Proof.
  split; [reflexivity|].
  apply (fetchEffect_no_address (answering textualBody) None kusamaConfig). reflexivity.
Defined.

Example run_offline :
  runFetchEffect offline true (Some alice) polkadotConfig idle =
    ({| st := idle;
        trace := [SetLoading true; ConsoleWarn;
                  Fetch (extrinsicsUrl polkadotConfig)
                    (extrinsicsRequest offline alice);
                  ConsoleError; SetItems (JArr []); SetLoading false] |},
     Ok tt).
Proof. reflexivity. Qed.

Example run_unauthorized :
  trace (runFetchEffect unauthorized true (Some alice) kusamaConfig idle).1 =
    [SetLoading true;
     Fetch (extrinsicsUrl kusamaConfig) (extrinsicsRequest unauthorized alice);
     ConsoleError; SetItems (JArr []); SetLoading false].
Proof. reflexivity. Qed.

Example run_garbled :
  trace (runFetchEffect garbled true (Some alice) kusamaConfig idle).1 =
    [SetLoading true;
     Fetch (extrinsicsUrl kusamaConfig) (extrinsicsRequest garbled alice);
     ConsoleError; SetItems (JArr []); SetLoading false].
Proof. reflexivity. Qed.

Example run_closed (s : state) :
  runFetchEffect offline false (Some alice) polkadotConfig s =
    ({| st := s; trace := [] |}, Ok tt).
Proof. reflexivity. Qed.

Example run_answered :
  (runFetchEffect (answering elevenBody) true (Some alice) polkadotConfig idle).1 =
    {| st := {| items := JArr elevenRecords; loading := false |};
       trace := [SetLoading true;
                 Fetch (extrinsicsUrl polkadotConfig)
                   (extrinsicsRequest (answering elevenBody) alice);
                 SetItems (JArr elevenRecords); SetLoading false] |}.
Proof. reflexivity. Qed.

(** C6: a run with a display address sets loading to false exactly once,
    as its last action, whatever the request did: rejected, answered with a
    failure status, answered with an unreadable body, or answered well. The
    run itself never throws. *)
Theorem fetchEffect_resets_loading_once (e : env) (address : option jsstring)
    (cfg : SubscanConfig) (s : state) :
  truthy address = true ->
  let run := runFetchEffect e true address cfg s in
  length (List.filter resetsLoading (trace run.1)) = 1%nat /\
  last (trace run.1) = Some (SetLoading false) /\
  loading (st run.1) = false /\
  run.2 = Ok tt.
Proof.
  intros H. cbv zeta. rewrite runFetchEffect_address by exact H.
  destruct (fetchedBody _), (truthy (Some (SUBSCAN_API_KEY e)));
    repeat split; reflexivity.
Qed.

Lemma fetchEffect_resets_loading_once_witness :
  truthy (Some alice) = true /\
  length (List.filter resetsLoading
            (trace (runFetchEffect (answering textualBody) true (Some alice)
                      westendConfig idle).1)) = 1%nat.
Proof.
  split; [reflexivity|].
  apply (fetchEffect_resets_loading_once (answering textualBody) (Some alice)
           westendConfig idle).
  reflexivity.
Defined.

(** C5, as stated, fails when the explorer answers with more than ten
    records: the list is stored as it came. *)
Lemma fetchEffect_stores_eleven :
  items (st (runFetchEffect (answering elevenBody) true (Some alice)
               polkadotConfig idle).1) = JArr elevenRecords /\
  (10 < length elevenRecords)%nat.
Proof. split; [reflexivity | simpl; lia]. Qed.

(** C5 (amended): when a run with the panel open has completed, the stored
    result list is empty if there was no display address or the fetch failed
    (rejected, failure status, unreadable body); after a fetch that succeeded
    it is the array under [data.list], or failing that the array under
    [data.extrinsics], exactly as the explorer sent it and of whatever
    length (the request asks for ten rows, the component does not cut the
    answer), and it is empty when [data.list] is no array and
    [data.extrinsics] is absent or null. The state before the run plays no
    part. *)
Theorem fetchEffect_stores_fetched (e : env) (address : option jsstring)
    (cfg : SubscanConfig) (s : state) :
  let stored := items (st (runFetchEffect e true address cfg s).1) in
  let answer :=
    fetchedBody (fetch e (extrinsicsUrl cfg)
                   (extrinsicsRequest e (interpolate address))) in
  (truthy address = false -> stored = JArr []) /\
  (truthy address = true -> answer = None -> stored = JArr []) /\
  (forall data l, truthy address = true -> answer = Some data ->
     dataField data "list" = Some (JArr l) -> stored = JArr l) /\
  (forall data l, truthy address = true -> answer = Some data ->
     isArray (dataField data "list") = false ->
     dataField data "extrinsics" = Some (JArr l) -> stored = JArr l) /\
  (forall data, truthy address = true -> answer = Some data ->
     isArray (dataField data "list") = false ->
     dataField data "extrinsics" = None \/
     dataField data "extrinsics" = Some JNull ->
     stored = JArr []).
Proof.
  cbv zeta. split; [|split; [|split; [|split]]].
  - intros H. now rewrite runFetchEffect_idle.
  - intros H A. rewrite runFetchEffect_address by exact H. now rewrite A.
  - intros data l H A L. rewrite runFetchEffect_address by exact H.
    rewrite A. now apply extractItems_list.
  - intros data l H A L X. rewrite runFetchEffect_address by exact H.
    rewrite A. cbn [st items]. rewrite extractItems_fallback by exact L.
    now rewrite X.
  - intros data H A L X. rewrite runFetchEffect_address by exact H.
    rewrite A. cbn [st items]. rewrite extractItems_fallback by exact L.
    now destruct X as [-> | ->].
Qed.

Lemma fetchEffect_stores_fetched_witness :
  truthy (Some alice) = true /\
  items (st (runFetchEffect (answering elevenBody) true (Some alice)
               paseoConfig idle).1) = JArr elevenRecords.
Proof.
  split; [reflexivity|].
  refine (proj1 (proj2 (proj2 (fetchEffect_stores_fetched (answering elevenBody)
            (Some alice) paseoConfig idle))) elevenBody elevenRecords _ _ _);
    reflexivity.
Defined.

(** ** Display address *)

(** C1 (defect): when an account is selected, its raw address is a
    non-empty string and the encoder throws on it, the derivation throws the
    same error; it does not answer [undefined]. *)
Theorem address_throws_on_malformed
    (encodeAddress : jsstring -> Z -> result jsstring)
    (acc : Account.t) (cfg : SubscanConfig) (raw : jsstring) (err : exn) :
  Account.address acc = Some raw -> raw <> [] ->
  encodeAddress raw (ss58 cfg) = Throw err ->
  address encodeAddress (Some acc) cfg = Throw err /\
  address encodeAddress (Some acc) cfg <> Ok None.
Proof.
  intros Ha Hr He. unfold address. rewrite Ha.
  destruct raw; [contradiction|]. cbn [truthy interpolate nullish].
  rewrite He. split; [reflexivity | discriminate].
Qed.

Lemma address_throws_on_malformed_witness :
  checkingEncoder (lit "not an address") (ss58 polkadotConfig)
  = Throw (Error (lit "Invalid base58 character")) /\
  address checkingEncoder (Some malformed) polkadotConfig
  = Throw (Error (lit "Invalid base58 character")).
Proof.
  split; [reflexivity|].
  refine (proj1 (address_throws_on_malformed checkingEncoder malformed
            polkadotConfig (lit "not an address")
            (Error (lit "Invalid base58 character")) eq_refl _ eq_refl)).
  discriminate.
Defined.

Example address_none (encodeAddress : jsstring -> Z -> result jsstring)
    (cfg : SubscanConfig) :
  address encodeAddress None cfg = Ok None.
Proof. reflexivity. Qed.

(** * Further properties *)

(** ** [short]: what the caller can rely on *)

Lemma len_app (a b : jsstring) : len (a ++ b) = len a + len b.
Proof. unfold len. rewrite length_app. lia. Qed.

(** X1: whatever the input and the width, [short] never answers the empty
    string: a cell that shows its result is never blank. *)
Theorem short_never_empty (s : option jsstring) (n : option Z) :
  1 <= len (short s n).
Proof.
  unfold short. destruct s as [[|c s]|]; try (unfold len; simpl; lia).
  cbn [truthy negb].
  destruct (len (c :: s) >? default 8 n * 2).
  - rewrite !len_app. pose proof (len_nonneg (slice (c :: s) 0 (default 8 n))).
    pose proof (len_nonneg (sliceFrom (c :: s) (- default 8 n))).
    unfold len at 2. simpl length. lia.
  - unfold len. simpl. lia.
Qed.

(** X2: for a width of at least 1 (the default 8 included) the result has at
    most [2 * width + 1] code units, whatever the length of the input. *)
Theorem short_length_bound (s : option jsstring) (n : option Z) :
  1 <= default 8 n ->
  len (short s n) <= 2 * default 8 n + 1.
Proof.
  intros Hn.
  assert (E : short s n = short s (Some (default 8 n))) by (destruct n; reflexivity).
  rewrite E. set (w := default 8 n) in *. clearbody w.
  destruct s as [s|]; [|unfold len; simpl; lia].
  destruct (Z.ltb_spec (w * 2) (len s)) as [Hl|Hl].
  - rewrite short_shortened by assumption.
    rewrite !len_app. unfold len in *. rewrite length_take, length_drop.
    simpl length. lia.
  - rewrite short_cases. destruct (decide (s = [])); [unfold len; simpl; lia|].
    destruct (Z.gtb_spec (len s) (w * 2)); lia.
Qed.

Lemma short_length_bound_witness :
  1 <= default 8 (Some 6) /\
  len (short (Some (lit "5GrwvaEF5zXb26Fz9rcQpDWS57CtERHpNehXCPcNoHGKutQY")) (Some 6))
  <= 2 * default 8 (Some 6) + 1.
Proof.
  split; [simpl; lia|].
  apply (short_length_bound
           (Some (lit "5GrwvaEF5zXb26Fz9rcQpDWS57CtERHpNehXCPcNoHGKutQY")) (Some 6)).
  simpl. lia.
Defined.

(** ** Resolver: consistency of what it answers *)

Lemma configOf_cases (n : jsstring) :
  configOf n = kusamaConfig \/ configOf n = westendConfig \/
  configOf n = paseoConfig \/ configOf n = polkadotConfig.
Proof.
  unfold configOf.
  destruct (includes (lit "kusa") n); [tauto|].
  destruct (includes (lit "west") n); [tauto|].
  destruct (includes (lit "pase") n); tauto.
Qed.

Lemma coretimeSubscanFor_cases (n : network) :
  coretimeSubscanFor n = kusamaConfig \/ coretimeSubscanFor n = westendConfig \/
  coretimeSubscanFor n = paseoConfig \/ coretimeSubscanFor n = polkadotConfig.
Proof.
  rewrite coretimeSubscanFor_identifier.
  destruct (identifier n); [apply configOf_cases | tauto].
Qed.

(** X3: whatever the network value, the API base and the explorer site of
    the answer name the same chain, and the address format is the one of
    that chain. *)
Theorem coretimeSubscanFor_same_chain (n : network) :
  exists chain format,
    api (coretimeSubscanFor n)
    = lit "https://coretime-" ++ chain ++ lit ".api.subscan.io" /\
    site (coretimeSubscanFor n)
    = lit "https://coretime-" ++ chain ++ lit ".subscan.io" /\
    ss58 (coretimeSubscanFor n) = format /\
    In (chain, format)
      [(lit "kusama", 2); (lit "westend", 42); (lit "paseo", 42);
       (lit "polkadot", 0)].
Proof.
  destruct (coretimeSubscanFor_cases n) as [E|[E|[E|E]]]; rewrite E.
  - exists (lit "kusama"), 2. repeat split. simpl. tauto.
  - exists (lit "westend"), 42. repeat split. simpl. tauto.
  - exists (lit "paseo"), 42. repeat split. simpl. tauto.
  - exists (lit "polkadot"), 0. repeat split. simpl. tauto.
Qed.

Lemma lowerUnit_idempotent (c : N) :
  flat_map lowerUnit (lowerUnit c) = lowerUnit c.
Proof.
  assert (K : forall d, (d < 65 \/ 90 < d)%N -> d <> 8490%N -> d <> 304%N ->
                lowerUnit d = [d]).
  { intros d Hd H1 H2. unfold lowerUnit.
    destruct (N.leb_spec 65 d), (N.leb_spec d 90); cbn [andb]; try lia;
      (destruct (N.eqb_spec d 8490); [contradiction|]);
      (destruct (N.eqb_spec d 304); [contradiction|]); reflexivity. }
  unfold lowerUnit at 2 3.
  destruct (N.leb_spec 65 c), (N.leb_spec c 90); cbn [andb].
  1: { cbn [flat_map]. rewrite K by lia. reflexivity. }
  all: destruct (N.eqb_spec c 8490); [reflexivity|];
       (destruct (N.eqb_spec c 304); [reflexivity|]);
       cbn [flat_map]; rewrite K by (assumption || lia); reflexivity.
Qed.

Lemma toLowerCase_idempotent (s : jsstring) :
  toLowerCase (toLowerCase s) = toLowerCase s.
Proof.
  unfold toLowerCase. induction s as [|c s IH]; [reflexivity|].
  cbn [flat_map]. rewrite flat_map_app, IH. f_equal.
  apply lowerUnit_idempotent.
Qed.

(** X4: the normalised name resolves like the value it came from, so a
    caller may store the normalised name and resolve it later. *)
Theorem coretimeSubscanFor_normalized (n : network) :
  coretimeSubscanFor (NetString (normalizeNetworkName n)) = coretimeSubscanFor n.
Proof.
  rewrite (coretimeSubscanFor_identifier (NetString _)). cbn [identifier].
  rewrite (coretimeSubscanFor_identifier n).
  destruct n as [|[|c s]|[i|] [m|]]; cbn [normalizeNetworkName identifier
    truthy negb nullish]; try reflexivity;
    now rewrite toLowerCase_idempotent.
Qed.

(** ** Explorer link and button text *)

(** X5: the link of a record always lies on the explorer site of the
    configuration: it is the site root followed by nothing, by an extrinsic
    path or by a block path. *)
Theorem explorerUrl_on_site (cfg : SubscanConfig) (ex : SubscanExtrinsic) :
  exists path,
    explorerUrl cfg ex = site cfg ++ path /\
    (path = [] \/ startsWith (lit "/extrinsic/") path = true \/
     startsWith (lit "/block/") path = true).
Proof.
  unfold explorerUrl.
  destruct (truthy (hash ex)); [eexists; split; [reflexivity | right; left; reflexivity]|].
  destruct (truthy (extrinsic_index ex));
    [eexists; split; [reflexivity | right; left; reflexivity]|].
  destruct (block_num ex).
  - eexists; split; [reflexivity | right; right; reflexivity].
  - exists []. split; [now rewrite app_nil_r | now left].
Qed.

(** X6: the link is the bare site root exactly when the record has no
    usable hash, no usable index and no block number. *)
Theorem explorerUrl_bare_iff (cfg : SubscanConfig) (ex : SubscanExtrinsic) :
  explorerUrl cfg ex = site cfg <->
  ~ nonEmpty (hash ex) /\ ~ nonEmpty (extrinsic_index ex) /\ block_num ex = None.
Proof.
  rewrite <- !truthy_false. unfold explorerUrl. split.
  - assert (K : forall p : jsstring, p <> [] -> site cfg ++ p <> site cfg).
    { intros p Hp E. apply Hp. apply (app_inv_head (site cfg)).
      now rewrite app_nil_r. }
    destruct (truthy (hash ex)); [intros E; now apply K in E|].
    destruct (truthy (extrinsic_index ex)); [intros E; now apply K in E|].
    destruct (block_num ex); [intros E; now apply K in E | tauto].
  - intros [-> [-> ->]]. reflexivity.
Qed.

Lemma explorerUrl_bare_iff_witness :
  explorerUrl paseoConfig
    {| extrinsic_index := Some []; block_num := None; hash := None;
       module_ := None; call := None; success := None; fee := None;
       time := None |}
  = site paseoConfig.
Proof.
  apply (explorerUrl_bare_iff paseoConfig). repeat split.
  - intros [h [E Hh]]. discriminate.
  - intros [h [E Hh]]. injection E as <-. now apply Hh.
Defined.

(** X7: the button names what the link opens whenever the hash is usable,
    or is missing while the index is usable; a hash that is present but
    empty blanks the button to the dash, whatever the index. *)
Theorem buttonText_follows_link (cfg : SubscanConfig) (ex : SubscanExtrinsic) :
  (forall h, hash ex = Some h -> h <> [] ->
     buttonText ex = short (Some h) (Some 8) /\
     explorerUrl cfg ex = site cfg ++ lit "/extrinsic/" ++ h) /\
  (forall i, hash ex = None -> extrinsic_index ex = Some i -> i <> [] ->
     buttonText ex = short (Some i) (Some 8) /\
     explorerUrl cfg ex = site cfg ++ lit "/extrinsic/" ++ i) /\
  (hash ex = Some [] -> buttonText ex = emDash).
Proof.
  unfold buttonText, explorerUrl. split; [|split].
  - intros h E Hh. rewrite E. destruct h; [contradiction|]. now split.
  - intros i E1 E2 Hi. rewrite E1, E2. destruct i; [contradiction|]. now split.
  - intros E. now rewrite E.
Qed.

Lemma buttonText_follows_link_witness :
  hash indexOnly = Some [] /\ buttonText indexOnly = emDash.
Proof.
  split; [reflexivity|].
  apply (proj2 (proj2 (buttonText_follows_link polkadotConfig indexOnly))).
  reflexivity.
Defined.

(** ** Status and label of a row *)

(** X8: a fetched record is drawn as a success exactly when its success
    flag is true; a missing flag counts as a failure, and the spinner of a
    pending row is never drawn. *)
Theorem StatusIcon_of_record (ex : SubscanExtrinsic) :
  (statusOf ex = Success <-> success ex = Some true) /\
  (statusOf ex = Failed <-> success ex <> Some true) /\
  (StatusIcon (statusOf ex) = CheckCircle2 \/
   StatusIcon (statusOf ex) = AlertTriangle).
Proof.
  unfold statusOf. destruct (success ex) as [[|]|]; cbn;
    repeat split; try tauto; try congruence; try discriminate.
Qed.

(** X9: the label is the placeholder "Transaction" exactly when the module
    or the call is missing or empty; otherwise it is the two joined by a
    dot. *)
Theorem labelOf_placeholder_iff (ex : SubscanExtrinsic) :
  (labelOf ex = lit "Transaction" <->
   ~ (nonEmpty (module_ ex) /\ nonEmpty (call ex))) /\
  (forall m c, module_ ex = Some m -> call ex = Some c -> m <> [] -> c <> [] ->
     labelOf ex = m ++ lit "." ++ c).
Proof.
  unfold labelOf. split.
  - rewrite <- !truthy_nonEmpty.
    destruct (truthy (module_ ex)) eqn:Hm, (truthy (call ex)) eqn:Hc;
      cbn [andb]; try (split; [intros _ [? ?]; discriminate | reflexivity]).
    split; [|intros H; exfalso; now apply H].
    intros E. exfalso.
    assert (I : In 46%N (interpolate (module_ ex) ++ lit "." ++ interpolate (call ex))).
    { apply in_or_app. right. now left. }
    rewrite E in I. vm_compute in I. intuition discriminate.
  - intros m c -> -> Hm Hc. destruct m, c; try contradiction. reflexivity.
Qed.

Lemma labelOf_placeholder_iff_witness :
  labelOf purchase = lit "broker" ++ lit "." ++ lit "purchase".
Proof.
  refine (proj2 (labelOf_placeholder_iff purchase) (lit "broker")
            (lit "purchase") eq_refl eq_refl _ _); discriminate.
Defined.

(** ** Relative time *)

Example when_examples (loc : Z -> jsstring) :
  when 1700000030000 loc (Some 1700000000) = lit "Just now" /\
  when 1700000600000 loc (Some 1700000000) = lit "10 min ago" /\
  when 1700010000000 loc (Some 1700000000) = lit "2h ago" /\
  when 1800000000000 loc (Some 1700000000) = loc 1700000000000 /\
  when 1700000000000 loc (Some 1800000000) = lit "Just now" /\
  when 1700000000000 loc (Some 0) = [] /\
  when 1700000000000 loc None = [] /\
  when 1700000000000 loc (Some 10000000000000000) = lit "Invalid Date".
Proof. repeat split. Qed.

(** The branch [when] takes on a timestamp that [Date] can hold. *)
Lemma when_valid (now : Z) (loc : Z -> jsstring) (t : Z) :
  t <> 0 -> Z.abs (t * 1000) <= maxTime ->
  when now loc (Some t) =
    let diff := now - t * 1000 in
    if diff <? 60000 then lit "Just now"
    else if diff <? 3600000 then numberToString (diff / 60000) ++ lit " min ago"
    else if diff <? 86400000 then numberToString (diff / 3600000) ++ lit "h ago"
    else loc (t * 1000).
Proof.
  intros Ht Hv. unfold when.
  destruct (Z.eqb_spec t 0); [contradiction|].
  destruct (Z.ltb_spec maxTime (Z.abs (t * 1000))); [lia | reflexivity].
Qed.

(** X10: a timestamp less than a minute old reads "Just now", and so does
    every timestamp that lies in the future of the clock. *)
Theorem when_just_now (now : Z) (loc : Z -> jsstring) (t : Z) :
  t <> 0 -> Z.abs (t * 1000) <= maxTime ->
  now - t * 1000 < 60000 ->
  when now loc (Some t) = lit "Just now".
Proof.
  intros Ht Hv Hd. rewrite when_valid by assumption. cbv zeta.
  destruct (Z.ltb_spec (now - t * 1000) 60000); [reflexivity | lia].
Qed.

Lemma when_just_now_witness :
  when 1700000000000 (fun _ => []) (Some 1800000000) = lit "Just now".
Proof.
  apply (when_just_now 1700000000000 (fun _ => []) 1800000000);
    unfold maxTime; lia.
Defined.

(** X11: between one minute and one hour the text is the number of whole
    minutes elapsed, which lies between 1 and 59. *)
Theorem when_minutes (now : Z) (loc : Z -> jsstring) (t : Z) :
  t <> 0 -> Z.abs (t * 1000) <= maxTime ->
  60000 <= now - t * 1000 < 3600000 ->
  exists m,
    when now loc (Some t) = numberToString m ++ lit " min ago" /\
    1 <= m <= 59 /\
    m * 60000 <= now - t * 1000 < (m + 1) * 60000.
Proof.
  intros Ht Hv Hd. rewrite when_valid by assumption. cbv zeta.
  destruct (Z.ltb_spec (now - t * 1000) 60000); [lia|].
  destruct (Z.ltb_spec (now - t * 1000) 3600000); [|lia].
  exists ((now - t * 1000) / 60000). split; [reflexivity|].
  pose proof (Z.div_mod (now - t * 1000) 60000 ltac:(lia)).
  pose proof (Z.mod_pos_bound (now - t * 1000) 60000 ltac:(lia)).
  lia.
Qed.

Lemma when_minutes_witness :
  exists m,
    when 1700000600000 (fun _ => []) (Some 1700000000)
    = numberToString m ++ lit " min ago" /\
    1 <= m <= 59 /\
    m * 60000 <= 1700000600000 - 1700000000 * 1000 < (m + 1) * 60000.
Proof.
  apply (when_minutes 1700000600000 (fun _ => []) 1700000000);
    unfold maxTime; lia.
Defined.

(** X12: between one hour and one day the text is the number of whole
    hours elapsed, which lies between 1 and 23. *)
Theorem when_hours (now : Z) (loc : Z -> jsstring) (t : Z) :
  t <> 0 -> Z.abs (t * 1000) <= maxTime ->
  3600000 <= now - t * 1000 < 86400000 ->
  exists h,
    when now loc (Some t) = numberToString h ++ lit "h ago" /\
    1 <= h <= 23 /\
    h * 3600000 <= now - t * 1000 < (h + 1) * 3600000.
Proof.
  intros Ht Hv Hd. rewrite when_valid by assumption. cbv zeta.
  destruct (Z.ltb_spec (now - t * 1000) 60000); [lia|].
  destruct (Z.ltb_spec (now - t * 1000) 3600000); [lia|].
  destruct (Z.ltb_spec (now - t * 1000) 86400000); [|lia].
  exists ((now - t * 1000) / 3600000). split; [reflexivity|].
  pose proof (Z.div_mod (now - t * 1000) 3600000 ltac:(lia)).
  pose proof (Z.mod_pos_bound (now - t * 1000) 3600000 ltac:(lia)).
  lia.
Qed.

Lemma when_hours_witness :
  exists h,
    when 1700010000000 (fun _ => []) (Some 1700000000)
    = numberToString h ++ lit "h ago" /\
    1 <= h <= 23 /\
    h * 3600000 <= 1700010000000 - 1700000000 * 1000 < (h + 1) * 3600000.
Proof.
  apply (when_hours 1700010000000 (fun _ => []) 1700000000);
    unfold maxTime; lia.
Defined.

(** ** Meta line of a row *)

Lemma join_cons (sep p : jsstring) (rest : list jsstring) :
  join sep (p :: rest) = p ++ match rest with
                              | [] => []
                              | _ :: _ => sep ++ join sep rest
                              end.
Proof. destruct rest; simpl; [now rewrite app_nil_r | reflexivity]. Qed.

Example row2_purchase (loc : Z -> jsstring) :
  row2 1700000600000 loc kusamaConfig purchase
  = lit "Coretime (Kusama)" ++ bullet ++ lit "10 min ago" ++ bullet
    ++ lit "Block 4096".
Proof. reflexivity. Qed.

(** X13: for the configuration of any network, the meta line of a record
    starts with the network label, has between one and three parts, none of
    them empty, and ends with the block when the record has a block number
    (block 0 included); without a timestamp and a block number it is the
    label alone, with no separator. *)
Theorem metaParts_shape (now : Z) (loc : Z -> jsstring) (n : network)
    (ex : SubscanExtrinsic) :
  let cfg := coretimeSubscanFor n in
  let parts := metaParts now loc cfg ex in
  head parts = Some (label cfg) /\
  Forall (fun p => 1 <= len p) parts /\
  (1 <= length parts <= 3)%nat /\
  (forall b, block_num ex = Some b ->
     last parts = Some (lit "Block " ++ numberToString b)) /\
  (exists rest, row2 now loc cfg ex = label cfg ++ rest) /\
  (time ex = None -> block_num ex = None -> row2 now loc cfg ex = label cfg).
Proof.
  cbv zeta. unfold row2, metaParts.
  assert (L : exists c l, label (coretimeSubscanFor n) = c :: l).
  { destruct (coretimeSubscanFor_cases n) as [E|[E|[E|E]]]; rewrite E;
      eexists _, _; reflexivity. }
  destruct L as [c [l ->]].
  assert (B : forall b, exists k, lit "Block " ++ numberToString b = 66%N :: k).
  { intros b. eexists. reflexivity. }
  assert (P : forall p : jsstring, p <> [] -> 1 <= len p).
  { intros [|? ?] Hp; [contradiction|]. unfold len. simpl. lia. }
  destruct (when now loc (time ex)) as [|wc w] eqn:W;
    destruct (block_num ex) as [b|] eqn:Hb;
    try (destruct (B b) as [k Ek]; rewrite Ek);
    cbn [List.filter truthy head last length];
    (split; [reflexivity|]);
    (split; [repeat constructor; apply P; discriminate|]);
    (split; [lia|]);
    (split; [intros b' Hb'; inversion Hb'; subst; try rewrite Ek; reflexivity|]);
    (split; [rewrite join_cons; eexists; reflexivity|]).
  all: intros T; try discriminate.
  all: intros _; try reflexivity.
  all: rewrite T in W; discriminate.
Qed.

Lemma metaParts_shape_witness :
  last (metaParts 1700000600000 (fun _ => []) (coretimeSubscanFor (NetString (lit "kusama")))
          purchase)
  = Some (lit "Block " ++ numberToString 4096).
Proof.
  apply (proj1 (proj2 (proj2 (proj2
           (metaParts_shape 1700000600000 (fun _ => [])
              (NetString (lit "kusama")) purchase))))).
  reflexivity.
Defined.

(** ** Dismissal on Escape *)

Lemma removeEventListener_others (d : list listener) (n : nat) (l : listener) :
  Forall (fun k => (closure k < n)%nat) d ->
  (n <= closure l)%nat -> removeEventListener l d = d.
Proof.
  intros Hd Hl. unfold removeEventListener.
  induction Hd as [|k d Hk Hd IH]; [reflexivity|].
  cbn [List.filter]. destruct (Nat.eqb_spec (closure k) (closure l)); [lia|].
  cbn [negb]. now rewrite IH.
Qed.

Lemma addEventListener_fresh (d : list listener) (n : nat) (l : listener) :
  Forall (fun k => (closure k < n)%nat) d ->
  (n <= closure l)%nat -> addEventListener l d = d ++ [l].
Proof.
  intros Hd Hl. unfold addEventListener.
  replace (existsb _ d) with false; [reflexivity|].
  symmetry. induction Hd as [|k d Hk Hd IH]; [reflexivity|].
  cbn [existsb]. destruct (Nat.eqb_spec (closure k) (closure l)); [lia|].
  exact IH.
Qed.

Section Escape.

Variable doc : list listener.
Variable n0 : nat.
Hypothesis others : Forall (fun k => (closure k < n0)%nat) doc.

Lemma escCleanup_live (o : bool) (l : listener) :
  (n0 <= closure l)%nat ->
  escCleanup l (doc ++ (if o then [l] else [])) = doc.
Proof.
  intros Hl. unfold escCleanup, removeEventListener.
  rewrite List.filter_app. fold (removeEventListener l doc).
  rewrite (removeEventListener_others doc n0) by assumption.
  destruct o; cbn [List.filter]; [|now rewrite app_nil_r].
  rewrite Nat.eqb_refl. cbn [negb]. now rewrite app_nil_r.
Qed.

Lemma escEffect_fresh (o : bool) (l : listener) :
  (n0 <= closure l)%nat ->
  escEffect o l doc = doc ++ (if o then [l] else []).
Proof.
  intros Hl. unfold escEffect.
  destruct o; [|now rewrite app_nil_r].
  now apply (addEventListener_fresh doc n0).
Qed.

(** A render keeps the bookkeeping consistent and leaves the effect of the
    rendered props live. *)
Lemma render_consistent (open : bool) (onClose : nat) (sh : shell) :
  consistent doc n0 sh ->
  consistent doc n0 (render open onClose sh) /\
  exists l, live (render open onClose sh) = Some (open, l) /\
            captured l = onClose.
Proof.
  intros [Hm Hl]. unfold render.
  destruct (live sh) as [[o l]|] eqn:E.
  - destruct Hl as [Hc Hd].
    destruct (Bool.eqb o open && Nat.eqb (captured l) onClose) eqn:Same.
    + apply andb_true_iff in Same as [So Sc].
      apply Bool.eqb_prop in So. apply Nat.eqb_eq in Sc. subst o.
      split; [|now exists l].
      split; [exact Hm|]. rewrite E. now split.
    + split; [|eexists; split; reflexivity].
      split; cbn [made live document closure]; [lia|].
      split; [lia|].
      rewrite Hd, escCleanup_live by lia.
      apply escEffect_fresh. cbn [closure]. lia.
  - split; [|eexists; split; reflexivity].
    split; cbn [made live document closure]; [lia|].
    split; [lia|].
    rewrite Hl. apply escEffect_fresh. cbn [closure]. lia.
Qed.

Lemma renders_consistent (props : list (bool * nat)) (sh : shell) :
  consistent doc n0 sh -> consistent doc n0 (renders props sh).
Proof.
  revert sh. induction props as [|[o c] props IH]; intros sh H; [exact H|].
  apply IH. now apply render_consistent.
Qed.

Lemma unmounted_consistent : consistent doc n0 (unmounted doc n0).
Proof. split; [apply Nat.le_refl | reflexivity]. Qed.

End Escape.

Lemma keydown_app (key : jsstring) (a b : list listener) :
  keydown key (a ++ b) = keydown key a ++ keydown key b.
Proof. apply flat_map_app. Qed.

Lemma keydown_other (key : jsstring) (d : list listener) :
  key <> lit "Escape" -> keydown key d = [].
Proof.
  intros Hk. unfold keydown, onEsc. induction d as [|l d IH]; [reflexivity|].
  cbn [flat_map]. rewrite IH. now rewrite bool_decide_eq_false_2.
Qed.

Example escape_after_reopen :
  keydown (lit "Escape")
    (document (renders [(true, 7%nat); (false, 7%nat); (true, 9%nat)]
                 (unmounted [] 0)))
  = [9%nat].
Proof. reflexivity. Qed.

(** X14: after any series of renders, a press of Escape makes the panel
    call the [onClose] of its latest render exactly once when that render
    was open, and not at all when it was closed; the listeners of others
    run as before, no stale [onClose] is called, and any other key calls
    nothing. *)
Theorem escape_closes_once (doc : list listener) (n0 : nat)
    (props : list (bool * nat)) (open : bool) (onClose : nat) :
  Forall (fun k => (closure k < n0)%nat) doc ->
  let sh := renders (props ++ [(open, onClose)]) (unmounted doc n0) in
  keydown (lit "Escape") (document sh)
  = keydown (lit "Escape") doc ++ (if open then [onClose] else []) /\
  (forall key, key <> lit "Escape" -> keydown key (document sh) = []).
Proof.
  intros Hd. cbv zeta. split; [|intros key Hk; now apply keydown_other].
  unfold renders. rewrite fold_left_app. cbn [fold_left fst snd].
  fold (renders props (unmounted doc n0)).
  pose proof (renders_consistent doc n0 Hd props _ (unmounted_consistent doc n0)) as C.
  destruct (render_consistent doc n0 Hd open onClose _ C) as [[_ C'] [l [El Ec]]].
  rewrite El in C'. destruct C' as [_ ->].
  rewrite keydown_app. f_equal.
  destruct open; [|reflexivity].
  unfold keydown, onEsc. cbn [flat_map]. rewrite Ec.
  now rewrite bool_decide_eq_true_2.
Qed.

Lemma escape_closes_once_witness :
  keydown (lit "Escape")
    (document (renders ([(true, 7%nat); (false, 7%nat)] ++ [(true, 9%nat)])
                 (unmounted [{| closure := 0; captured := 3 |}] 1)))
  = keydown (lit "Escape") [{| closure := 0; captured := 3 |}] ++ [9%nat].
Proof.
  apply (escape_closes_once [{| closure := 0; captured := 3 |}] 1
           [(true, 7%nat); (false, 7%nat)] true 9).
  repeat constructor.
Defined.

(** X15: the panel holds at most one listener at any time, and unmounting
    after any series of renders leaves the document with exactly the
    listeners it had before the panel was mounted. *)
Theorem unmount_restores_document (doc : list listener) (n0 : nat)
    (props : list (bool * nat)) :
  Forall (fun k => (closure k < n0)%nat) doc ->
  let sh := renders props (unmounted doc n0) in
  (exists own, document sh = doc ++ own /\ (length own <= 1)%nat) /\
  document (unmount sh) = doc.
Proof.
  intros Hd. cbv zeta.
  pose proof (renders_consistent doc n0 Hd props _ (unmounted_consistent doc n0))
    as [_ C].
  unfold unmount. cbn [document].
  destruct (live (renders props (unmounted doc n0))) as [[o l]|].
  - destruct C as [Hl ->]. split.
    + eexists. split; [reflexivity|]. destruct o; simpl; lia.
    + apply (escCleanup_live doc n0 Hd). lia.
  - rewrite C. split; [|reflexivity].
    exists []. split; [now rewrite app_nil_r | simpl; lia].
Qed.

Lemma unmount_restores_document_witness :
  document (unmount (renders [(true, 7%nat); (true, 8%nat)]
                       (unmounted [{| closure := 0; captured := 3 |}] 1)))
  = [{| closure := 0; captured := 3 |}].
Proof.
  apply (unmount_restores_document [{| closure := 0; captured := 3 |}] 1
           [(true, 7%nat); (true, 8%nat)]).
  repeat constructor.
Defined.

(** ** History fetcher: requests, diagnostics and what the user sees *)

(** X16: a run with a display address turns loading on first and then
    makes exactly one request, to the extrinsics endpoint of the
    configuration, whatever the outcome: a failure is never retried. *)
Theorem fetchEffect_single_request (e : env) (address : option jsstring)
    (cfg : SubscanConfig) (s : state) :
  truthy address = true ->
  let tr := trace (runFetchEffect e true address cfg s).1 in
  head tr = Some (SetLoading true) /\
  List.filter isFetch tr
  = [Fetch (api cfg ++ lit "/api/v2/scan/extrinsics")
       (extrinsicsRequest e (interpolate address))].
Proof.
  intros H. cbv zeta. rewrite runFetchEffect_address by exact H.
  fold (extrinsicsUrl cfg).
  destruct (fetchedBody _), (truthy (Some (SUBSCAN_API_KEY e)));
    split; reflexivity.
Qed.

Lemma fetchEffect_single_request_witness :
  List.filter isFetch
    (trace (runFetchEffect offline true (Some alice) paseoConfig idle).1)
  = [Fetch (api paseoConfig ++ lit "/api/v2/scan/extrinsics")
       (extrinsicsRequest offline (interpolate (Some alice)))].
Proof.
  apply (fetchEffect_single_request offline (Some alice) paseoConfig idle).
  reflexivity.
Defined.

(** X17: with the panel open, the outcome of a run does not depend on what
    was stored or shown before it: results are never merged with earlier
    ones. *)
Theorem fetchEffect_forgets_state (e : env) (address : option jsstring)
    (cfg : SubscanConfig) (s1 s2 : state) :
  runFetchEffect e true address cfg s1 = runFetchEffect e true address cfg s2.
Proof.
  destruct (truthy address) eqn:H.
  - now rewrite !runFetchEffect_address by exact H.
  - now rewrite !runFetchEffect_idle by exact H.
Qed.

(** X18: a run with a display address writes an error to the console
    exactly when the fetch did not succeed (rejected, failure status or
    unreadable body). *)
Theorem fetchEffect_error_logged_iff (e : env) (address : option jsstring)
    (cfg : SubscanConfig) (s : state) :
  truthy address = true ->
  (In ConsoleError (trace (runFetchEffect e true address cfg s).1) <->
   fetchedBody (fetch e (extrinsicsUrl cfg)
                  (extrinsicsRequest e (interpolate address))) = None).
Proof.
  intros H. rewrite runFetchEffect_address by exact H. cbv zeta.
  destruct (fetchedBody _), (truthy (Some (SUBSCAN_API_KEY e)));
    cbn [fst trace app In]; split; intros K;
    try reflexivity; try discriminate;
    intuition discriminate.
Qed.

Lemma fetchEffect_error_logged_iff_witness :
  In ConsoleError
    (trace (runFetchEffect unauthorized true (Some alice) kusamaConfig idle).1).
Proof.
  apply (fetchEffect_error_logged_iff unauthorized (Some alice) kusamaConfig idle);
    reflexivity.
Defined.

(** X19: a run with a display address warns on the console exactly when
    the configured API key is empty; the request is made all the same. *)
Theorem fetchEffect_warns_iff_no_key (e : env) (address : option jsstring)
    (cfg : SubscanConfig) (s : state) :
  truthy address = true ->
  (In ConsoleWarn (trace (runFetchEffect e true address cfg s).1) <->
   SUBSCAN_API_KEY e = []) /\
  In (Fetch (extrinsicsUrl cfg) (extrinsicsRequest e (interpolate address)))
    (trace (runFetchEffect e true address cfg s).1).
Proof.
  intros H. rewrite runFetchEffect_address by exact H. cbv zeta.
  destruct (fetchedBody _), (SUBSCAN_API_KEY e) eqn:K;
    cbn [fst trace app In truthy]; split;
    try (split; intros; try reflexivity; try discriminate);
    intuition discriminate.
Qed.

Lemma fetchEffect_warns_iff_no_key_witness :
  In ConsoleWarn
    (trace (runFetchEffect offline true (Some alice) kusamaConfig idle).1).
Proof.
  apply (proj1 (fetchEffect_warns_iff_no_key offline (Some alice) kusamaConfig
                  idle eq_refl)).
  reflexivity.
Defined.

(** X20: after a completed run with the panel open the notice is:
    "Please select an account." without a display address; with one, "No
    transactions found for this address." after a failed fetch, exactly as
    after a fetch that brought an empty list; and none after a fetch that
    brought a list with records. *)
Theorem emptyNotice_after_run (e : env) (address : option jsstring)
    (cfg : SubscanConfig) (s : state) :
  let after := st (runFetchEffect e true address cfg s).1 in
  let answer :=
    fetchedBody (fetch e (extrinsicsUrl cfg)
                   (extrinsicsRequest e (interpolate address))) in
  let notice := emptyNotice (loading after) address (items after) in
  (truthy address = false ->
     notice = Ok (Some (lit "Please select an account."))) /\
  (truthy address = true -> answer = None ->
     notice = Ok (Some (lit "No transactions found for this address."))) /\
  (forall data l, truthy address = true -> answer = Some data ->
     extractItems data = JArr l ->
     notice = Ok (if bool_decide (l = [])
                  then Some (lit "No transactions found for this address.")
                  else None)).
Proof.
  cbv zeta. split; [|split].
  - intros H. rewrite runFetchEffect_idle by exact H.
    unfold emptyNotice. cbn [fst st loading items negb]. now rewrite H.
  - intros H A. rewrite runFetchEffect_address by exact H. cbv zeta.
    rewrite A. unfold emptyNotice. cbn [fst st loading items negb].
    now rewrite H.
  - intros data l H A X. rewrite runFetchEffect_address by exact H. cbv zeta.
    rewrite A. unfold emptyNotice. cbn [fst st loading items negb].
    rewrite H, X. cbn [negb lengthIsZero]. now destruct (bool_decide (l = [])).
Qed.

Lemma emptyNotice_after_run_witness :
  emptyNotice
    (loading (st (runFetchEffect unauthorized true (Some alice) westendConfig idle).1))
    (Some alice)
    (items (st (runFetchEffect unauthorized true (Some alice) westendConfig idle).1))
  = Ok (Some (lit "No transactions found for this address.")).
Proof.
  apply (proj1 (proj2 (emptyNotice_after_run unauthorized (Some alice)
                         westendConfig idle))); reflexivity.
Defined.

(** ** Shape of the extracted list *)

Lemma nullishV_not_null (v : option jsval) (d : jsval) :
  d <> JNull -> nullishV v d <> JNull.
Proof. intros Hd. destruct v as [[]|]; simpl; congruence. Qed.

Lemma extractItems_not_null (data : jsval) : extractItems data <> JNull.
Proof.
  unfold extractItems.
  destruct (optGet (optGet (Some data) (lit "data")) (lit "list")) as [[]|];
    cbn [isArray nullishV]; try discriminate;
    apply nullishV_not_null; discriminate.
Qed.

(** X21: what is extracted from a body is an array in every case but one:
    [data.list] is no array and [data.extrinsics] holds a value that is
    neither null nor an array; that value is then extracted as it is. *)
Theorem extractItems_array_unless (data : jsval) :
  isArray (Some (extractItems data)) = true \/
  (isArray (dataField data "list") = false /\
   exists v, dataField data "extrinsics" = Some v /\
             v <> JNull /\
             isArray (Some v) = false /\
             extractItems data = v).
Proof.
  unfold extractItems, dataField.
  destruct (isArray (optGet (optGet (Some data) (lit "data")) (lit "list"))) eqn:L.
  - left.
    destruct (optGet (optGet (Some data) (lit "data")) (lit "list")) as [[]|];
      try discriminate. reflexivity.
  - destruct (optGet (optGet (Some data) (lit "data")) (lit "extrinsics"))
      as [v|]; [|left; reflexivity].
    destruct (isArray (Some v)) eqn:V.
    + left. destruct v; try discriminate. reflexivity.
    + destruct v; try discriminate; try (left; reflexivity);
        right; (split; [reflexivity|]); eexists; repeat split; discriminate.
Qed.

(** X22: after a completed run with the panel open, computing the notice
    never throws, whatever the body of the response was: the stored value
    is never null. *)
Theorem emptyNotice_after_run_total (e : env) (address : option jsstring)
    (cfg : SubscanConfig) (s : state) :
  let after := st (runFetchEffect e true address cfg s).1 in
  exists notice, emptyNotice (loading after) address (items after) = Ok notice.
Proof.
  cbv zeta. unfold emptyNotice. destruct (truthy address) eqn:H.
  - rewrite runFetchEffect_address by exact H. cbv zeta.
    destruct (fetchedBody _) as [data|]; cbn [fst st loading items negb].
    + pose proof (extractItems_not_null data) as N.
      destruct (extractItems data); try contradiction; cbn [lengthIsZero];
        try (eexists; reflexivity).
      * destruct (bool_decide (s0 = [])); eexists; reflexivity.
      * destruct (bool_decide (l = [])); eexists; reflexivity.
      * destruct (m !! lit "length") as [[]|]; try (eexists; reflexivity).
        destruct z; eexists; reflexivity.
    + eexists; reflexivity.
  - rewrite runFetchEffect_idle by exact H. cbn. eexists; reflexivity.
Qed.
